(** * mcp-server: the tool dispatcher of [dist/index.js]

    A shallow embedding of the server's startup gate ([validateEnvironment]),
    its tool registry ([TOOLS]) and its two request handlers (the
    [ListToolsRequestSchema] and the [CallToolRequestSchema] handler), with
    the properties of the specification stated over them.

    Conventions of the model.
    - A JavaScript string is a [string] holding the UTF-8 encoding of its
      text.  Concatenation, equality and JSON quoting commute with that
      encoding; the one operation of the program that counts UTF-16 code
      units ([substring(0, 5)] in the startup confirmation) is written out
      on the encoded form.
    - The environment is a finite map from names to string values, read
      after [config()] has merged the [.env] file into it.  A read of
      [process.env] under a name that is not a variable goes on to the
      members the object inherits ([constructor], [toString], ...); such a
      member is given by the text a template literal makes of it, which is
      all the program does with the value of a name it did not choose.
    - A request reaches the handlers decoded: [params.name] is a string and
      [params.arguments] is absent or an object whose values are JSON
      values, as the protocol's request schema guarantees.
    - Two functions of the host's internationalisation and number printing
      are taken as they are, as variables of the section that holds the
      handlers: the rendering of a number and the rendering of an instant
      in a locale and time zone. *)

From Stdlib Require Import Ascii String Floats.
From stdpp Require Import gmap strings list fin_maps.

Local Open Scope string_scope.

(** ** Completions: a value, or a thrown exception *)

(** The constructors of the exceptions the program can meet. *)
Inductive ErrorConstructor := ErrorCtor | TypeErrorCtor.

(** A thrown value.  Everything thrown inside the dispatcher is an instance
    of [Error] (or of its subclass [TypeError]) carrying a message. *)
Record JSError := mkError { ctor : ErrorConstructor; message : string }.

Inductive completion (A : Type) :=
| Normal (a : A)
| Throw (e : JSError).
Arguments Normal {A} a.
Arguments Throw {A} e.

(** Sequencing: an exception of the first step ends the computation.
    With these instances [x ← c; k] reads as [const x = c; k]. *)
#[global] Instance completion_ret : MRet completion := fun _ a => Normal a.
#[global] Instance completion_bind : MBind completion := fun _ _ k c =>
  match c with
  | Normal a => k a
  | Throw e => Throw e
  end.

(** ** JSON values, as [JSON.parse] delivers them *)

#[local] Set Warnings "-register-all".
Inductive JSON :=
| JNull
| JBool (b : bool)
| JNumber (x : float)
| JString (s : string)
| JArray (elems : list JSON)
| JObject (props : list (string * JSON)).

(** A JavaScript value read out of the arguments: [undefined] or JSON. *)
Definition JSValue := option JSON.

(** Own property lookup on an object given by its property list. *)
Fixpoint getOwn (k : string) (props : list (string * JSON)) : option JSON :=
  match props with
  | [] => None
  | (k', v) :: rest => if decide (k' = k) then Some v else getOwn k rest
  end.

(** ** Strings *)

(** The characters a Rocq string literal cannot hold as they are. *)
Definition LF : string := String "010"%char "".
Definition DQUOTE : string := String "034"%char "".
Definition BACKSLASH : string := String "092"%char "".

(** [Array.prototype.join] on an array of strings. *)
Fixpoint join (sep : string) (l : list string) : string :=
  match l with
  | [] => ""
  | [x] => x
  | x :: rest => x +:+ sep +:+ join sep rest
  end.

(** One lowercase hexadecimal digit. *)
Definition hexDigit (n : N) : string :=
  match n with
  | 0 => "0" | 1 => "1" | 2 => "2" | 3 => "3" | 4 => "4" | 5 => "5"
  | 6 => "6" | 7 => "7" | 8 => "8" | 9 => "9" | 10 => "a" | 11 => "b"
  | 12 => "c" | 13 => "d" | 14 => "e" | _ => "f"
  end%N.

(** The escape of one character in [QuoteJSONString]: the short escapes,
    [\uXXXX] for the other control characters, the character itself
    otherwise (every byte of a multi-byte character is above the range
    that is escaped). *)
Definition quoteChar (c : ascii) : string :=
  let n := N_of_ascii c in
  if (n =? 8)%N then BACKSLASH +:+ "b"
  else if (n =? 9)%N then BACKSLASH +:+ "t"
  else if (n =? 10)%N then BACKSLASH +:+ "n"
  else if (n =? 12)%N then BACKSLASH +:+ "f"
  else if (n =? 13)%N then BACKSLASH +:+ "r"
  else if (n =? 34)%N then BACKSLASH +:+ DQUOTE
  else if (n =? 92)%N then BACKSLASH +:+ BACKSLASH
  else if (n <? 32)%N then
    BACKSLASH +:+ "u00" +:+ hexDigit (n / 16) +:+ hexDigit (n mod 16)
  else String c "".

Fixpoint quoteChars (s : string) : string :=
  match s with
  | EmptyString => ""
  | String c rest => quoteChar c +:+ quoteChars rest
  end.

Definition QuoteJSONString (s : string) : string :=
  DQUOTE +:+ quoteChars s +:+ DQUOTE.

(** The number of UTF-16 code units of the character that starts with the
    byte [c]: two for a character outside the basic plane (a four-byte
    sequence), one otherwise. *)
Definition codeUnits (c : ascii) : nat :=
  if (240 <=? N_of_ascii c)%N then 2 else 1.

(** A byte that continues a multi-byte character. *)
Definition isContinuation (c : ascii) : bool :=
  (128 <=? N_of_ascii c)%N && (N_of_ascii c <? 192)%N.

(** U+FFFD, which the output stream writes for half a surrogate pair. *)
Definition REPLACEMENT : string :=
  String "239"%char (String "191"%char (String "189"%char "")).

(** [s.substring(0, n)] as it reaches an output stream: the characters
    that fit in the first [n] code units; a character outside the basic
    plane cut in two leaves a lone surrogate, written as U+FFFD. *)
Fixpoint substring0 (n : nat) (s : string) : string :=
  match s with
  | EmptyString => ""
  | String c rest =>
      if isContinuation c then String c (substring0 n rest)
      else
        match n with
        | O => ""
        | S n' =>
            match codeUnits c, n' with
            | 2, O => REPLACEMENT
            | w, _ => String c (substring0 (n - w) rest)
            end
        end
  end.

(** The message V8 gives the [TypeError] of a failed [ToPrimitive]. *)
Definition kCannotConvertToPrimitive : string :=
  "Cannot convert object to primitive value".

Definition cannotConvert : JSError :=
  mkError TypeErrorCtor kCannotConvertToPrimitive.

(** ** The process: what it writes, and how it ends *)

(** An argument of [console.error]: a string, or an error object. *)
Inductive LogArg := LogStr (s : string) | LogError (e : JSError).

(** What the outside sees of the process at startup. *)
Inductive Event :=
| ConsoleError (args : list LogArg)
| ProcessExit (code : Z)
| ServerConnect.

(** A run of top-level code: the events so far, and the value it yields
    unless the process has exited. *)
Record Proc (A : Type) := mkProc { trace : list Event; result : option A }.
Arguments mkProc {A} trace result.
Arguments trace {A} p.
Arguments result {A} p.

#[global] Instance Proc_ret : MRet Proc := fun _ a => mkProc [] (Some a).
#[global] Instance Proc_bind : MBind Proc := fun _ _ k p =>
  match result p with
  | None => mkProc (trace p) None
  | Some a => mkProc (trace p ++ trace (k a)) (result (k a))
  end.

Definition console_error (args : list LogArg) : Proc unit :=
  mkProc [ConsoleError args] (Some tt).

Definition process_exit {A} (code : Z) : Proc A :=
  mkProc [ProcessExit code] None.

Definition server_connect : Proc unit :=
  mkProc [ServerConnect] (Some tt).

(** [l.forEach(f)] *)
Fixpoint forEach {A} (l : list A) (f : A -> Proc unit) : Proc unit :=
  match l with
  | [] => mret tt
  | x :: rest => f x ;; forEach rest f
  end.

(** ** The process environment *)

(** The functions every object inherits from [Object.prototype]. *)
Definition objectPrototypeFunctions : list string := [
  "__defineGetter__"; "__defineSetter__"; "hasOwnProperty";
  "__lookupGetter__"; "__lookupSetter__"; "isPrototypeOf";
  "propertyIsEnumerable"; "toString"; "valueOf"; "toLocaleString"
].

(** The member the [process.env] object inherits under the name [k], as
    the text a template literal makes of it: [constructor] is the
    anonymous native function the object was made by, [__proto__] reads
    the prototype, a plain object, and the others are native functions,
    rendered with their name. *)
Definition inheritedMember (k : string) : option string :=
  if String.eqb k "constructor" then Some "function () { [native code] }"
  else if String.eqb k "__proto__" then Some "[object Object]"
  else if existsb (String.eqb k) objectPrototypeFunctions
  then Some ("function " +:+ k +:+ "() { [native code] }")
  else None.

(** [process.env[k]]: the value of the variable; for a name that is not
    a variable, the inherited member of that name, or [undefined]. *)
Definition getenv (env : gmap string string) (k : string) : option string :=
  match env !! k with
  | Some v => Some v
  | None => inheritedMember k
  end.

(** Truthiness of a value read from the environment: [undefined] and the
    empty string are falsy. *)
Definition truthy (v : option string) : bool :=
  match v with
  | None => false
  | Some s => negb (String.eqb s "")
  end.

(** [v || d] on a value read from the environment. *)
Definition orElse (v : option string) (d : string) : string :=
  match v with
  | Some s => if truthy v then s else d
  | None => d
  end.

(** ** Results of a tool call *)

Record ContentItem := mkItem { type : string; text : string }.

(** [isError] is an optional key: [None] when the object literal does not
    have it. *)
Record ToolCallResult := mkResult {
  content : list ContentItem;
  isError : option bool
}.

(** ** The tool registry *)

Module Tool.
Record Descriptor := mk {
  name : string;
  description : string;
  inputSchema : JSON
}.
End Tool.

Definition TOOLS : list Tool.Descriptor := [
  Tool.mk "echo" "返回输入的文本"
    (JObject [
      ("type", JString "object");
      ("properties", JObject [
        ("message", JObject [
          ("type", JString "string");
          ("description", JString "要返回的消息")])]);
      ("required", JArray [JString "message"])]);
  Tool.mk "get_time" "获取当前时间"
    (JObject [
      ("type", JString "object");
      ("properties", JObject [])]);
  Tool.mk "get_env" "获取环境变量的值"
    (JObject [
      ("type", JString "object");
      ("properties", JObject [
        ("key", JObject [
          ("type", JString "string");
          ("description", JString "环境变量的键名")])]);
      ("required", JArray [JString "key"])]);
  Tool.mk "get_config" "获取服务器配置信息（从环境变量读取）"
    (JObject [
      ("type", JString "object");
      ("properties", JObject [])])
].

(** ** Requests *)

(** The parameters of a tool call: [arguments] is an optional key. *)
Module Params.
Record t := mk {
  name : string;
  arguments : option (gmap string JSON)
}.
End Params.

(** [args?.k]: [undefined] when [args] is absent or has no such key. *)
Definition optGet (args : option (gmap string JSON)) (k : string) : JSValue :=
  match args with
  | None => None
  | Some o => o !! k
  end.

(** What a handler reads from outside the request: the environment and the
    clock, [now] being the time value [new Date()] takes. *)
Record World := mkWorld {
  env : gmap string string;
  now : Z
}.

(** A protocol request, decoded, and the answer to it. *)
Inductive Request :=
| ListToolsRequest
| CallToolRequest (params : Params.t).

Inductive Response :=
| ListToolsResult (tools : list Tool.Descriptor)
| CallToolResult (r : ToolCallResult).

Section Host.

(** [Number::toString] of the host, for the numbers of a request. *)
Variable Number_toString : float -> string.

(** [Date.prototype.toLocaleString("zh-CN", {timeZone: "Asia/Shanghai"})]
    of the host, on the time value (milliseconds since the epoch). *)
Variable Date_toLocaleString : Z -> string.

(** [Array.prototype.join] with the separator [","], over the already
    converted elements: [null] gives the empty string. *)
Definition joinComma {A} (conv : A -> completion string) (isNull : A -> bool) :=
  fix go (l : list A) : completion string :=
    match l with
    | [] => Normal ""
    | [x] => if isNull x then Normal "" else conv x
    | x :: rest =>
        s ← (if isNull x then Normal "" else conv x);
        r ← go rest;
        Normal (s +:+ "," +:+ r)
    end.

Definition isJNull (v : JSON) : bool :=
  match v with JNull => true | _ => false end.

(** [ToString] on a JSON value (what a template literal applies to an
    interpolated value).
    - An array goes through [Array.prototype.toString], that is [join].
    - A plain object goes through [OrdinaryToPrimitive] with hint string:
      [toString] is tried first, then [valueOf].  An own property of that
      name holds JSON data, which is not callable, and is skipped; the
      inherited [Object.prototype.toString] gives ["[object Object]"]; the
      inherited [Object.prototype.valueOf] gives the object back, which is
      not a primitive.  When neither gives a primitive a [TypeError] is
      thrown. *)
Fixpoint ToString (v : JSON) : completion string :=
  match v with
  | JNull => Normal "null"
  | JBool true => Normal "true"
  | JBool false => Normal "false"
  | JNumber x => Normal (Number_toString x)
  | JString s => Normal s
  | JArray elems => joinComma ToString isJNull elems
  | JObject props =>
      match getOwn "toString" props with
      | None => Normal "[object Object]"
      | Some _ =>
          match getOwn "valueOf" props with
          | None => Throw cannotConvert
          | Some _ => Throw cannotConvert
          end
      end
  end.

(** [ToString] on a JavaScript value that may be [undefined]. *)
Definition ToStringV (v : JSValue) : completion string :=
  match v with
  | None => Normal "undefined"
  | Some j => ToString j
  end.

(** ** [JSON.stringify(value, null, 2)] *)

Definition GAP : string := "  ".

(** A number that is not finite is written as [null]. *)
Definition isFinite (x : float) : bool :=
  negb (PrimFloat.is_nan x || PrimFloat.is_infinity x).

(** [stringify indent v]: the serialisation of [v] at the indentation
    [indent].  A non-empty object or array puts each member on a line of
    its own, one step deeper, and closes at the indentation it opened at.
    No value here has a callable [toJSON], and none is [undefined]. *)
Fixpoint stringify (indent : string) (v : JSON) : string :=
  match v with
  | JNull => "null"
  | JBool true => "true"
  | JBool false => "false"
  | JNumber x => if isFinite x then Number_toString x else "null"
  | JString s => QuoteJSONString s
  | JArray elems =>
      match elems with
      | [] => "[]"
      | _ =>
          let stepback := indent in
          let indent := indent +:+ GAP in
          "[" +:+ LF +:+ indent
            +:+ join ("," +:+ LF +:+ indent) (map (stringify indent) elems)
            +:+ LF +:+ stepback +:+ "]"
      end
  | JObject props =>
      match props with
      | [] => "{}"
      | _ =>
          let stepback := indent in
          let indent := indent +:+ GAP in
          "{" +:+ LF +:+ indent
            +:+ join ("," +:+ LF +:+ indent)
                  (map (fun kv => QuoteJSONString kv.1 +:+ ": "
                                    +:+ stringify indent kv.2) props)
            +:+ LF +:+ stepback +:+ "}"
      end
  end.

Definition JSON_stringify (v : JSON) : string := stringify "" v.

(** ** Startup *)

Definition REQUIRED_ENV_VARS : list string := ["API_KEY"; "SERVER_NAME"].

(** The loop that collects [missing]. *)
Definition missingVars (e : gmap string string) : list string :=
  List.filter (fun varName => negb (truthy (getenv e varName)))
    REQUIRED_ENV_VARS.

(** The object printed as an example of a launcher configuration. *)
Definition launcherExample (missing : list string) : JSON :=
  JObject [
    ("mcpServers", JObject [
      ("mcp-server", JObject [
        ("command", JString "npx");
        ("args", JArray [JString "-y"; JString "path/to/your/project"]);
        ("env", JObject (map (fun v => (v, JString "your-value-here"))
                           missing))])])].

(** A value of the environment inside a template literal. *)
Definition showEnv (v : option string) : string :=
  match v with
  | None => "undefined"
  | Some s => s
  end.

Definition validateEnvironment (e : gmap string string) : Proc unit :=
  let missing := missingVars e in
  (if (0 <? length missing)%nat then
     console_error [LogStr "❌ 错误：缺少必需的环境变量！"] ;;
     console_error [LogStr (LF +:+ "缺少的变量: " +:+ join ", " missing +:+ LF)] ;;
     console_error [LogStr "请按以下步骤配置："] ;;
     console_error [LogStr "1. 复制 .env.example 为 .env"] ;;
     console_error [LogStr "   cp .env.example .env"] ;;
     console_error [LogStr "2. 编辑 .env 文件，设置以下变量："] ;;
     forEach missing (fun varName =>
       console_error [LogStr ("   " +:+ varName +:+ "=your-value-here")]) ;;
     console_error [LogStr (LF +:+ "或者在 Claude Desktop 配置中添加 env 字段：")] ;;
     console_error [LogStr (JSON_stringify (launcherExample missing))] ;;
     process_exit 1
   else mret tt) ;;
  console_error [LogStr "✅ 环境变量验证通过"] ;;
  console_error [LogStr ("   SERVER_NAME: " +:+ showEnv (getenv e "SERVER_NAME"))] ;;
  console_error [LogStr ("   API_KEY: "
    +:+ showEnv (substring0 5 <$> getenv e "API_KEY") +:+ "***")].

(** [main]: connect the server to the transport, then report.  [connect]
    is how [server.connect] ends; the completion of [main] is the
    settlement of its promise. *)
Definition main (connect : completion unit) : Proc (completion unit) :=
  server_connect ;;
  match connect with
  | Normal _ =>
      console_error [LogStr "MCP 服务器正在运行..."] ;;
      mret (Normal tt)
  | Throw error => mret (Throw error)
  end.

(** The top level of the module: validate, then [main().catch(...)]. *)
Definition program (e : gmap string string) (connect : completion unit)
  : Proc unit :=
  validateEnvironment e ;;
  settled ← main connect;
  match settled with
  | Normal _ => mret tt
  | Throw error =>
      console_error [LogStr "服务器错误:"; LogError error] ;;
      process_exit 1
  end.

(** ** The handler of [ListToolsRequestSchema] *)

Definition ListTools (w : World) : completion (list Tool.Descriptor) :=
  Normal TOOLS.

(** ** The handler of [CallToolRequestSchema] *)

(** A result with one text item and no [isError] key. *)
Definition textResult (s : string) : ToolCallResult :=
  mkResult [mkItem "text" s] None.

(** The object literal [config] of the [get_config] case. *)
Definition configObject (e : gmap string string) : JSON :=
  JObject [
    ("serverName", JString (orElse (getenv e "SERVER_NAME") "未设置"));
    ("environment", JString (orElse (getenv e "NODE_ENV") "development"));
    ("port", JString (orElse (getenv e "PORT") "未设置"));
    ("apiKey", JString (if truthy (getenv e "API_KEY")
                        then "已设置 (***隐藏)" else "未设置"));
    ("customSetting", JString (orElse (getenv e "CUSTOM_SETTING") "未设置"))
  ].

(** The [try] block: the [switch] on the tool name. *)
Definition CallTool_try (w : World) (params : Params.t)
  : completion ToolCallResult :=
  let name := Params.name params in
  let args := Params.arguments params in
  if decide (name = "echo") then
    let message := optGet args "message" in
    s ← ToStringV message;
    Normal (textResult ("回显: " +:+ s))
  else if decide (name = "get_time") then
    Normal (textResult ("当前时间: " +:+ Date_toLocaleString (now w)))
  else if decide (name = "get_env") then
    let key := optGet args "key" in
    k ← ToStringV key;
    let value := getenv (env w) k in
    match value with
    | None =>
        s ← ToStringV key;
        Normal (textResult ("环境变量 " +:+ s +:+ " 未设置"))
    | Some v =>
        s ← ToStringV key;
        Normal (textResult (s +:+ " = " +:+ v))
    end
  else if decide (name = "get_config") then
    let config := configObject (env w) in
    Normal (textResult ("服务器配置:" +:+ LF +:+ JSON_stringify config))
  else
    Throw (mkError ErrorCtor ("未知工具: " +:+ name)).

(** The [catch] block.  Every [JSError] is an instance of [Error], so
    [errorMessage] is its [message]. *)
Definition CallTool_catch (error : JSError) : ToolCallResult :=
  let errorMessage := message error in
  mkResult [mkItem "text" ("错误: " +:+ errorMessage)] (Some true).

(** The handler: what the [try] returns, or what the [catch] makes of the
    exception. *)
Definition CallTool (w : World) (params : Params.t)
  : completion ToolCallResult :=
  match CallTool_try w params with
  | Normal r => Normal r
  | Throw error => Normal (CallTool_catch error)
  end.

(** ** Serving *)

(** The two handlers registered with [server.setRequestHandler]. *)
Definition handleRequest (w : World) (req : Request) : completion Response :=
  match req with
  | ListToolsRequest => tools ← ListTools w; mret (ListToolsResult tools)
  | CallToolRequest params => r ← CallTool w params; mret (CallToolResult r)
  end.

(** The requests of a connection, each with the instant it is handled at,
    answered in order against one environment. *)
Definition serve (e : gmap string string) (inbox : list (Z * Request))
  : list (completion Response) :=
  map (fun tr => handleRequest (mkWorld e tr.1) tr.2) inbox.

(** ** Which values a template literal can render *)

(** [convertible v]: no object with an own [toString] property is met on
    the way through [v]'s arrays ([null] elements are not converted). *)
Fixpoint convertible (v : JSON) : bool :=
  match v with
  | JArray elems => forallb convertible elems
  | JObject props =>
      match getOwn "toString" props with
      | None => true
      | Some _ => false
      end
  | _ => true
  end.

Definition convertibleV (v : JSValue) : bool :=
  match v with
  | None => true
  | Some j => convertible j
  end.

(** The argument a tool interpolates into its text, if it has one. *)
Definition interpolated (params : Params.t) : JSValue :=
  if decide (Params.name params = "echo")
  then optGet (Params.arguments params) "message"
  else if decide (Params.name params = "get_env")
  then optGet (Params.arguments params) "key"
  else None.

(** The names of the registry. *)
Definition toolNames : list string := map Tool.name TOOLS.

(** The field of the [get_config] snapshot and the variable it reads. *)
Definition configVars : list (string * string) := [
  ("serverName", "SERVER_NAME");
  ("environment", "NODE_ENV");
  ("port", "PORT");
  ("apiKey", "API_KEY");
  ("customSetting", "CUSTOM_SETTING")
].

(** A field of the snapshot. *)
Definition configField (e : gmap string string) (field : string) : option JSON :=
  match configObject e with
  | JObject props => getOwn field props
  | _ => None
  end.

(** A required variable is missing when it is absent or empty. *)
Definition absentOrEmpty (e : gmap string string) (k : string) : Prop :=
  e !! k = None ∨ e !! k = Some "".

(** A host to run the model on: numbers and instants are rendered by a
    fixed text, which no property below depends on. *)
Definition sampleNumber (x : float) : string := "1".
Definition sampleDate (t : Z) : string := "2024/1/15 14:30:45".
Definition sampleEnv : gmap string string :=
  <["API_KEY" := "sk-12345678"]> (<["SERVER_NAME" := "demo"]> ∅).

(** Sample requests. *)

Definition echoHi : Params.t :=
  Params.mk "echo" (Some {["message" := JString "hi"]}).

Definition bogusTool : Params.t := Params.mk "bogus_tool" (Some ∅).

(** An echo whose message is an object with a property named
    [toString], as in the request text [{"message": {"toString": null}}]. *)
Definition echoOwnToString : Params.t :=
  Params.mk "echo" (Some {["message" := JObject [("toString", JNull)]]}).

Definition getEnvOf (k : string) : Params.t :=
  Params.mk "get_env" (Some {["key" := JString k]}).

Definition sampleWorld : World := mkWorld sampleEnv 0.

(** ** The launcher example, line by line *)

(** A text between double quotes. *)
Definition quoted (s : string) : string := DQUOTE +:+ s +:+ DQUOTE.

(** One line for each name of the [env] block, with a comma after all
    but the last. *)
Fixpoint envEntryLines (names : list string) : list string :=
  match names with
  | [] => []
  | [k] => ["        " +:+ quoted k +:+ ": " +:+ quoted "your-value-here"]
  | k :: rest =>
      ("        " +:+ quoted k +:+ ": " +:+ quoted "your-value-here" +:+ ",")
        :: envEntryLines rest
  end.

(** The lines of the launcher configuration printed for the names
    [names], as the process writes them. *)
Definition launcherLines (names : list string) : list string :=
  (["{";
    "  " +:+ quoted "mcpServers" +:+ ": {";
    "    " +:+ quoted "mcp-server" +:+ ": {";
    "      " +:+ quoted "command" +:+ ": " +:+ quoted "npx" +:+ ",";
    "      " +:+ quoted "args" +:+ ": [";
    "        " +:+ quoted "-y" +:+ ",";
    "        " +:+ quoted "path/to/your/project";
    "      ],";
    "      " +:+ quoted "env" +:+ ": {"]
   ++ envEntryLines names
   ++ ["      }";
       "    }";
       "  }";
       "}"])%list.

(** ** Measures on the texts written *)

(** The number of line feeds in a text: one less than its lines. *)
Fixpoint countLF (s : string) : nat :=
  match s with
  | EmptyString => 0
  | String c rest =>
      (if Ascii.eqb c "010"%char then 1 else 0) + countLF rest
  end.

(** A text made of ASCII characters only. *)
Fixpoint isAscii (s : string) : bool :=
  match s with
  | EmptyString => true
  | String c rest => (N_of_ascii c <? 128)%N && isAscii rest
  end.

(** The text of a result with a single item. *)
Definition textOf (r : ToolCallResult) : string :=
  match content r with
  | [item] => text item
  | _ => ""
  end.

(** A name is not among the given ones. *)
Ltac not_in_names :=
  let H := fresh in
  intros H; repeat (apply elem_of_cons in H as [H|H]; [discriminate H|]);
  inversion H.

(** * Properties *)

(** ** Reading [process.env] *)

(** A variable that is set is read as its value. *)
Lemma getenv_set (e : gmap string string) (k v : string) :
  e !! k = Some v → getenv e k = Some v.
Proof. intros H. unfold getenv. rewrite H. reflexivity. Qed.

(** Under a name that is not inherited, the read is the lookup of the
    variable. *)
Lemma getenv_variable (e : gmap string string) (k : string) :
  inheritedMember k = None → getenv e k = e !! k.
Proof. intros H. unfold getenv. rewrite H. destruct (e !! k); reflexivity. Qed.

(** ** Conversion to a string *)

(** Induction on JSON values that reaches the elements of an array. *)
Lemma JSON_array_ind (P : JSON → Prop) :
  P JNull → (∀ b, P (JBool b)) → (∀ x, P (JNumber x)) → (∀ s, P (JString s)) →
  (∀ elems, Forall P elems → P (JArray elems)) →
  (∀ props, P (JObject props)) →
  ∀ v, P v.
Proof.
  intros Hn Hb Hx Hs Ha Ho. fix IH 1.
  intros [| b | x | s | elems | props];
    [exact Hn | apply Hb | apply Hx | apply Hs | | apply Ho].
  apply Ha. revert elems. fix IHl 1.
  intros [|v elems]; constructor; [apply IH | apply IHl].
Qed.

Lemma joinComma_cons {A} (conv : A → completion string) (isNull : A → bool)
    (x : A) (l : list A) :
  joinComma conv isNull (x :: l) =
    match l with
    | [] => if isNull x then Normal "" else conv x
    | _ :: _ =>
        s ← (if isNull x then Normal "" else conv x);
        r ← joinComma conv isNull l;
        Normal (s +:+ "," +:+ r)
    end.
Proof. destruct l; reflexivity. Qed.

(** [ToString] returns exactly on the convertible values, and throws the
    [TypeError] of [ToPrimitive] on the others. *)
Lemma ToString_convertible (v : JSON) :
  if convertible v then ∃ s, ToString v = Normal s
  else ToString v = Throw cannotConvert.
Proof.
  induction v as [| b | x | s | elems IH | props] using JSON_array_ind;
    simpl; eauto.
  - destruct b; eauto.
  - change (if forallb convertible elems
            then ∃ s, joinComma ToString isJNull elems = Normal s
            else joinComma ToString isJNull elems = Throw cannotConvert).
    induction IH as [|v elems Hv _ IHl]; [simpl; eauto|].
    rewrite joinComma_cons. simpl forallb.
    assert (Hx : if convertible v
                 then ∃ s, (if isJNull v then Normal "" else ToString v) = Normal s
                 else (if isJNull v then Normal "" else ToString v)
                      = Throw cannotConvert).
    { destruct v; simpl in *; eauto. }
    destruct (convertible v); simpl.
    + destruct Hx as [s ->]. destruct elems as [|v' elems']; [simpl; eauto|].
      destruct (forallb convertible (v' :: elems')).
      * destruct IHl as [r ->]. simpl. eauto.
      * rewrite IHl. reflexivity.
    + rewrite Hx. destruct elems; reflexivity.
  - destruct (getOwn "toString" props); [|eauto].
    destruct (getOwn "valueOf" props); reflexivity.
Qed.

Lemma ToStringV_convertible (v : JSValue) :
  if convertibleV v then ∃ s, ToStringV v = Normal s
  else ToStringV v = Throw cannotConvert.
Proof.
  destruct v as [j|]; simpl; [apply ToString_convertible | eauto].
Qed.

(** ** The cases of the [switch] *)

Lemma try_echo w args :
  CallTool_try w (Params.mk "echo" args) =
    s ← ToStringV (optGet args "message"); Normal (textResult ("回显: " +:+ s)).
Proof. reflexivity. Qed.

Lemma try_get_time w args :
  CallTool_try w (Params.mk "get_time" args) =
    Normal (textResult ("当前时间: " +:+ Date_toLocaleString (now w))).
Proof. reflexivity. Qed.

Lemma try_get_env w args :
  CallTool_try w (Params.mk "get_env" args) =
    k ← ToStringV (optGet args "key");
    Normal (textResult (match getenv (env w) k with
                        | None => "环境变量 " +:+ k +:+ " 未设置"
                        | Some v => k +:+ " = " +:+ v
                        end)).
Proof.
  unfold CallTool_try; simpl.
  destruct (ToStringV _) as [k|e]; simpl; [|reflexivity].
  destruct (getenv (env w) k); reflexivity.
Qed.

Lemma try_get_config w args :
  CallTool_try w (Params.mk "get_config" args) =
    Normal (textResult ("服务器配置:" +:+ LF
                          +:+ JSON_stringify (configObject (env w)))).
Proof. reflexivity. Qed.

Lemma try_unknown w params :
  Params.name params ∉ toolNames →
  CallTool_try w params =
    Throw (mkError ErrorCtor ("未知工具: " +:+ Params.name params)).
Proof.
  intros Hn. unfold CallTool_try.
  repeat case_decide; try reflexivity;
    exfalso; apply Hn; unfold toolNames; simpl;
    match goal with H : Params.name _ = _ |- _ => rewrite H end;
    set_solver.
Qed.

(** The handler never throws: the [catch] turns every exception of the
    [try] into a result. *)
Lemma CallTool_total w params : ∃ r, CallTool w params = Normal r.
Proof.
  unfold CallTool. destruct (CallTool_try w params); eauto.
Qed.

(** ** Reading the environment *)

Lemma truthy_Some (s : string) : s ≠ "" → truthy (Some s) = true.
Proof.
  intros Hs. simpl. apply negb_true_iff, String.eqb_neq. exact Hs.
Qed.

Lemma truthy_false (e : gmap string string) (k : string) :
  truthy (e !! k) = false ↔ absentOrEmpty e k.
Proof.
  unfold absentOrEmpty. destruct (e !! k) as [s|]; simpl.
  - rewrite negb_false_iff, String.eqb_eq. split.
    + intros ->. right. reflexivity.
    + intros [H|H]; [discriminate | congruence].
  - split; [left; reflexivity | reflexivity].
Qed.

Lemma truthy_true (e : gmap string string) (k : string) :
  truthy (e !! k) = true ↔ ¬ absentOrEmpty e k.
Proof.
  rewrite <- truthy_false. destruct (truthy (e !! k)); split; congruence.
Qed.

(** The loop over [REQUIRED_ENV_VARS], unrolled. *)
Lemma missingVars_unrolled (e : gmap string string) :
  missingVars e =
    ((if truthy (e !! "API_KEY") then [] else ["API_KEY"])
     ++ (if truthy (e !! "SERVER_NAME") then [] else ["SERVER_NAME"]))%list.
Proof.
  unfold missingVars, REQUIRED_ENV_VARS. simpl.
  rewrite !getenv_variable by reflexivity.
  destruct (truthy (e !! "API_KEY")), (truthy (e !! "SERVER_NAME"));
    reflexivity.
Qed.

(** ** Startup *)

Lemma forEach_console_error {A} (l : list A) (f : A → list LogArg) :
  forEach l (λ x, console_error (f x)) =
    mkProc (map (λ x, ConsoleError (f x)) l) (Some tt).
Proof.
  induction l as [|x l IH]; [reflexivity|].
  simpl. rewrite IH. reflexivity.
Qed.

(** What the process writes when something is missing, and how it ends. *)
Lemma validateEnvironment_missing (e : gmap string string) :
  missingVars e ≠ [] →
  validateEnvironment e =
    mkProc
      ([ConsoleError [LogStr "❌ 错误：缺少必需的环境变量！"];
        ConsoleError [LogStr (LF +:+ "缺少的变量: "
                                +:+ join ", " (missingVars e) +:+ LF)];
        ConsoleError [LogStr "请按以下步骤配置："];
        ConsoleError [LogStr "1. 复制 .env.example 为 .env"];
        ConsoleError [LogStr "   cp .env.example .env"];
        ConsoleError [LogStr "2. 编辑 .env 文件，设置以下变量："]]
       ++ map (λ varName, ConsoleError
                 [LogStr ("   " +:+ varName +:+ "=your-value-here")])
            (missingVars e)
       ++ [ConsoleError
             [LogStr (LF +:+ "或者在 Claude Desktop 配置中添加 env 字段：")];
           ConsoleError
             [LogStr (JSON_stringify (launcherExample (missingVars e)))];
           ProcessExit 1])%list
      None.
Proof.
  intros Hne. unfold validateEnvironment.
  destruct (missingVars e) as [|k ks] eqn:Hm; [contradiction|].
  rewrite forEach_console_error. reflexivity.
Qed.

(** What the process writes when nothing is missing; it goes on. *)
Lemma validateEnvironment_passes (e : gmap string string) :
  missingVars e = [] →
  validateEnvironment e =
    mkProc
      [ConsoleError [LogStr "✅ 环境变量验证通过"];
       ConsoleError
         [LogStr ("   SERVER_NAME: " +:+ showEnv (getenv e "SERVER_NAME"))];
       ConsoleError
         [LogStr ("   API_KEY: "
                    +:+ showEnv (substring0 5 <$> getenv e "API_KEY")
                    +:+ "***")]]
      (Some tt).
Proof.
  intros Hm. unfold validateEnvironment. rewrite Hm. reflexivity.
Qed.

Lemma missingVars_nonempty (e : gmap string string) :
  missingVars e ≠ [] ↔
    absentOrEmpty e "API_KEY" ∨ absentOrEmpty e "SERVER_NAME".
Proof.
  rewrite missingVars_unrolled, <- !truthy_false.
  destruct (truthy (e !! "API_KEY")), (truthy (e !! "SERVER_NAME"));
    simpl; split; intros H; try congruence; try tauto; try discriminate.
  destruct H; discriminate.
Qed.

(** The list of missing names is one of four. *)
Lemma missingVars_cases (e : gmap string string) :
  (¬ absentOrEmpty e "API_KEY" ∧ ¬ absentOrEmpty e "SERVER_NAME"
     ∧ missingVars e = [])
  ∨ (absentOrEmpty e "API_KEY" ∧ ¬ absentOrEmpty e "SERVER_NAME"
     ∧ missingVars e = ["API_KEY"])
  ∨ (¬ absentOrEmpty e "API_KEY" ∧ absentOrEmpty e "SERVER_NAME"
     ∧ missingVars e = ["SERVER_NAME"])
  ∨ (absentOrEmpty e "API_KEY" ∧ absentOrEmpty e "SERVER_NAME"
     ∧ missingVars e = ["API_KEY"; "SERVER_NAME"]).
Proof.
  rewrite missingVars_unrolled, <- !truthy_false.
  destruct (truthy (e !! "API_KEY")), (truthy (e !! "SERVER_NAME")); simpl.
  - left. repeat split; discriminate.
  - right. right. left. repeat split; discriminate.
  - right. left. repeat split; discriminate.
  - right. right. right. repeat split.
Qed.

(** The serialisation of the launcher example is the text of its lines. *)
Lemma launcherExample_lines (names : list string) :
  names = ["API_KEY"] ∨ names = ["SERVER_NAME"]
    ∨ names = ["API_KEY"; "SERVER_NAME"] →
  JSON_stringify (launcherExample names) = join LF (launcherLines names).
Proof.
  intros [->|[->| ->]]; reflexivity.
Qed.

(** C2. The names collected as missing are exactly the required variables
    that are absent or empty, API_KEY before SERVER_NAME.  When one of the
    two is missing the process writes the diagnostic and nothing else: the
    line that lists the missing names and no other name, one line of
    guidance for each of them, and the launcher example with an entry for
    each of them; it then exits with status 1 and never connects.  When
    both are present and non-empty validation lets the process go on to
    connect. *)
Theorem startup_gate (e : gmap string string) (connect : completion unit) :
  (∀ k, k ∈ missingVars e ↔ k ∈ REQUIRED_ENV_VARS ∧ absentOrEmpty e k)
  ∧ (absentOrEmpty e "API_KEY" → ¬ absentOrEmpty e "SERVER_NAME" →
       missingVars e = ["API_KEY"])
  ∧ (¬ absentOrEmpty e "API_KEY" → absentOrEmpty e "SERVER_NAME" →
       missingVars e = ["SERVER_NAME"])
  ∧ (absentOrEmpty e "API_KEY" → absentOrEmpty e "SERVER_NAME" →
       missingVars e = ["API_KEY"; "SERVER_NAME"])
  ∧ (absentOrEmpty e "API_KEY" ∨ absentOrEmpty e "SERVER_NAME" →
       program e connect =
         mkProc
           ([ConsoleError [LogStr "❌ 错误：缺少必需的环境变量！"];
             ConsoleError [LogStr (LF +:+ "缺少的变量: "
                                     +:+ join ", " (missingVars e) +:+ LF)];
             ConsoleError [LogStr "请按以下步骤配置："];
             ConsoleError [LogStr "1. 复制 .env.example 为 .env"];
             ConsoleError [LogStr "   cp .env.example .env"];
             ConsoleError [LogStr "2. 编辑 .env 文件，设置以下变量："]]
            ++ map (λ varName, ConsoleError
                      [LogStr ("   " +:+ varName +:+ "=your-value-here")])
                 (missingVars e)
            ++ [ConsoleError
                  [LogStr (LF +:+ "或者在 Claude Desktop 配置中添加 env 字段：")];
                ConsoleError
                  [LogStr (join LF (launcherLines (missingVars e)))];
                ProcessExit 1])%list
           None
       ∧ (ServerConnect ∉ trace (program e connect)))
  ∧ (¬ absentOrEmpty e "API_KEY" → ¬ absentOrEmpty e "SERVER_NAME" →
       missingVars e = []
       ∧ result (validateEnvironment e) = Some tt
       ∧ ServerConnect ∈ trace (program e connect)).
Proof.
  pose proof (missingVars_cases e) as Hcases.
  split; [|split; [|split; [|split; [|split]]]].
  - intros k. unfold REQUIRED_ENV_VARS.
    destruct Hcases as [(Ha & Hs & ->)|[(Ha & Hs & ->)|[(Ha & Hs & ->)
                       |(Ha & Hs & ->)]]];
      rewrite ?elem_of_cons, ?elem_of_nil;
      intuition (subst; auto; contradiction).
  - intros Ha Hs.
    destruct Hcases as [(Ha' & _)|[(_ & _ & H)|[(Ha' & _)|(_ & Hs' & _)]]];
      [contradiction | exact H | contradiction | contradiction].
  - intros Ha Hs.
    destruct Hcases as [(_ & Hs' & _)|[(_ & Hs' & _)|[(_ & _ & H)|(Ha' & _)]]];
      [contradiction | contradiction | exact H | contradiction].
  - intros Ha Hs.
    destruct Hcases as [(Ha' & _)|[(_ & Hs' & _)|[(Ha' & _)|(_ & _ & H)]]];
      [contradiction | contradiction | contradiction | exact H].
  - intros Hmiss. apply missingVars_nonempty in Hmiss.
    assert (Hnames : missingVars e = ["API_KEY"] ∨ missingVars e = ["SERVER_NAME"]
                     ∨ missingVars e = ["API_KEY"; "SERVER_NAME"]).
    { destruct Hcases as [(_ & _ & H)|[(_ & _ & H)|[(_ & _ & H)|(_ & _ & H)]]];
        [contradiction | auto | auto | auto]. }
    assert (Hprog : program e connect = validateEnvironment e).
    { unfold program. rewrite (validateEnvironment_missing e Hmiss).
      reflexivity. }
    rewrite Hprog, (validateEnvironment_missing e Hmiss),
      (launcherExample_lines _ Hnames).
    split; [reflexivity|]. simpl.
    rewrite !elem_of_cons, !elem_of_app, !elem_of_cons, list_elem_of_fmap,
      elem_of_nil.
    intros H.
    repeat match goal with
           | H : _ ∨ _ |- _ => destruct H as [H|H]
           | H : ∃ _, _ ∧ _ |- _ => destruct H as (? & H & _)
           | H : False |- _ => destruct H
           | H : ServerConnect = _ |- _ => discriminate H
           end.
  - intros Ha Hs. apply truthy_true in Ha, Hs.
    assert (Hm : missingVars e = []).
    { rewrite missingVars_unrolled, Ha, Hs. reflexivity. }
    split; [exact Hm|].
    unfold program. rewrite (validateEnvironment_passes e Hm).
    split; [reflexivity|].
    destruct connect; cbn; rewrite !elem_of_cons; auto 10.
Qed.

(** ** The registry *)

(** C3. Every list_tools request returns the registry itself: four
    descriptors, named echo, get_time, get_env, get_config in that order,
    with the registry's schemas, whatever the environment and the clock. *)
Theorem list_tools_returns_registry (w : World) :
  ListTools w = Normal TOOLS
  ∧ length TOOLS = 4
  ∧ map Tool.name TOOLS = ["echo"; "get_time"; "get_env"; "get_config"]
  ∧ ∀ w' : World, ListTools w' = ListTools w.
Proof. repeat split. Qed.

(** ** The tools *)

(** C7. An echo call whose message is the string [m] succeeds with the
    single text item made of the prefix followed by [m], the same prefix
    for every world and every other argument. *)
Theorem echo_returns_prefixed_message
    (w : World) (args : gmap string JSON) (m : string) :
  args !! "message" = Some (JString m) →
  CallTool w (Params.mk "echo" (Some args)) =
    Normal (mkResult [mkItem "text" ("回显: " +:+ m)] None).
Proof.
  intros Hm. unfold CallTool. rewrite try_echo. simpl. rewrite Hm. reflexivity.
Qed.


(** C8. When the required argument is absent the handler goes on with
    [undefined]: echo succeeds with the text of the prefix followed by
    ["undefined"], and get_env succeeds with a text about the variable
    named ["undefined"]; neither is a validation error. *)
Theorem absent_argument_embeds_undefined
    (w : World) (args : option (gmap string JSON)) :
  (optGet args "message" = None →
     CallTool w (Params.mk "echo" args) =
       Normal (mkResult [mkItem "text" "回显: undefined"] None))
  ∧ (optGet args "key" = None →
     CallTool w (Params.mk "get_env" args) =
       Normal (mkResult
         [mkItem "text" (match env w !! "undefined" with
                         | None => "环境变量 undefined 未设置"
                         | Some v => "undefined = " +:+ v
                         end)] None)).
Proof.
  split; intros Ha; unfold CallTool.
  - rewrite try_echo, Ha. reflexivity.
  - rewrite try_get_env, Ha. simpl.
    rewrite getenv_variable by reflexivity. reflexivity.
Qed.

(** C5. The get_config result shows whether API_KEY is set and nothing
    of its value: two environments that differ only in the non-empty value
    of API_KEY give the same result, and the apiKey field is the fixed
    presence indicator. *)
Theorem get_config_hides_api_key
    (e : gmap string string) (t : Z) (args : option (gmap string JSON))
    (v1 v2 : string) :
  v1 ≠ "" → v2 ≠ "" →
  CallTool (mkWorld (<["API_KEY" := v1]> e) t) (Params.mk "get_config" args) =
    CallTool (mkWorld (<["API_KEY" := v2]> e) t) (Params.mk "get_config" args)
  ∧ configField (<["API_KEY" := v1]> e) "apiKey" =
      Some (JString "已设置 (***隐藏)").
Proof.
  intros H1 H2.
  assert (Hcfg : ∀ v, v ≠ "" →
            configObject (<["API_KEY" := v]> e) =
            configObject (<["API_KEY" := "x"]> e)).
  { intros v Hv. unfold configObject, getenv.
    rewrite !lookup_insert_eq, !lookup_insert_ne by discriminate.
    rewrite (truthy_Some v Hv). reflexivity. }
  split.
  - unfold CallTool. rewrite !try_get_config. simpl.
    rewrite (Hcfg v1 H1), (Hcfg v2 H2). reflexivity.
  - unfold configField, configObject, getenv. simpl.
    rewrite lookup_insert_eq, (truthy_Some v1 H1). reflexivity.
Qed.

(** C6, as the code has it. In the get_config snapshot a field whose
    variable is absent holds its default: the text "development" for
    environment, and the "not set" text for serverName, port, apiKey and
    customSetting; the snapshot is the text of the call. *)
Theorem get_config_defaults
    (e : gmap string string) (t : Z) (args : option (gmap string JSON))
    (field var : string) :
  (field, var) ∈ configVars →
  e !! var = None →
  configField e field =
    Some (JString (if decide (field = "environment")
                   then "development" else "未设置"))
  ∧ CallTool (mkWorld e t) (Params.mk "get_config" args) =
      Normal (mkResult
        [mkItem "text" ("服务器配置:" +:+ LF
                          +:+ JSON_stringify (configObject e))] None).
Proof.
  intros Hin Hnone. split; [|reflexivity].
  unfold configVars in Hin.
  repeat (apply elem_of_cons in Hin as [Hin|Hin]);
    try (inversion Hin; subst; unfold configField, configObject, getenv;
         simpl; rewrite Hnone; reflexivity).
Qed.

(** ** The dispatcher *)

(** C1. The handler always returns a result: an exception of the [try]
    block becomes the result with [isError: true] and one text item that
    carries the exception's message; for a name outside the registry that
    message names the unknown tool; and every request of a connection gets
    an answer, so no request stops the ones after it. *)
Theorem dispatcher_catches_every_fault
    (w : World) (params : Params.t) (inbox : list (Z * Request)) :
  (∃ r, CallTool w params = Normal r)
  ∧ (∀ err, CallTool_try w params = Throw err →
       CallTool w params =
         Normal (mkResult [mkItem "text" ("错误: " +:+ message err)] (Some true)))
  ∧ (Params.name params ∉ ["echo"; "get_time"; "get_env"; "get_config"] →
       CallTool w params =
         Normal (mkResult
           [mkItem "text" ("错误: 未知工具: " +:+ Params.name params)] (Some true)))
  ∧ length (serve (env w) inbox) = length inbox
  ∧ Forall (λ c, ∃ resp, c = Normal resp) (serve (env w) inbox).
Proof.
  split; [apply CallTool_total|].
  split; [intros err He; unfold CallTool; rewrite He; reflexivity|].
  split.
  { intros Hn. unfold CallTool. rewrite try_unknown by exact Hn. reflexivity. }
  split; [unfold serve; apply length_map|].
  unfold serve. apply Forall_forall. intros c Hc.
  apply list_elem_of_In, in_map_iff in Hc. destruct Hc as [[t req] [<- _]].
  destruct req as [|p]; simpl; [eauto|].
  destruct (CallTool_total (mkWorld (env w) t) p) as [r ->]. simpl. eauto.
Qed.

(** C9. With the environment fixed, the result of a call does not depend
    on when it is made, unless the tool is get_time; the result of
    get_time is the fixed label followed by the rendering of the instant,
    whatever the environment and the arguments. *)
Theorem calls_are_deterministic
    (e : gmap string string) (t1 t2 : Z) (params : Params.t) :
  (Params.name params ≠ "get_time" →
     CallTool (mkWorld e t1) params = CallTool (mkWorld e t2) params)
  ∧ (∀ (e' : gmap string string) (args : option (gmap string JSON)),
       CallTool (mkWorld e' t1) (Params.mk "get_time" args) =
         Normal (mkResult
           [mkItem "text" ("当前时间: " +:+ Date_toLocaleString t1)] None)).
Proof.
  split; [|reflexivity].
  intros Hn. unfold CallTool, CallTool_try.
  repeat case_decide; try reflexivity. contradiction.
Qed.

(** C10, as the code has it. A call of a registered tool reaches the
    [catch] only through the conversion of the argument it puts into its
    text (message for echo, key for get_env): when that argument is absent
    or convertible the [try] returns a result with exactly one text item
    and no [isError]; when it is not, the [try] throws the [TypeError] of
    the conversion, which the [catch] reports with [isError: true]. *)
Theorem registered_call_fails_only_on_conversion
    (w : World) (params : Params.t) :
  Params.name params ∈ toolNames →
  (convertibleV (interpolated params) = true →
     ∃ s, CallTool_try w params = Normal (mkResult [mkItem "text" s] None)
          ∧ CallTool w params = Normal (mkResult [mkItem "text" s] None))
  ∧ (convertibleV (interpolated params) = false →
     CallTool_try w params = Throw cannotConvert
     ∧ CallTool w params =
         Normal (mkResult
           [mkItem "text" ("错误: " +:+ kCannotConvertToPrimitive)] (Some true))).
Proof.
  destruct params as [name args]. unfold toolNames. simpl. intros Hin.
  assert (Hcatch : ∀ p, CallTool_try w p = Throw cannotConvert →
            CallTool w p = Normal (mkResult
              [mkItem "text" ("错误: " +:+ kCannotConvertToPrimitive)]
              (Some true))).
  { intros p Hp. unfold CallTool. rewrite Hp. reflexivity. }
  assert (Hret : ∀ p r, CallTool_try w p = Normal r → CallTool w p = Normal r).
  { intros p r Hp. unfold CallTool. rewrite Hp. reflexivity. }
  repeat (apply elem_of_cons in Hin as [->|Hin]); [| | | |inversion Hin].
  - (* echo *)
    unfold interpolated. simpl.
    pose proof (ToStringV_convertible (optGet args "message")) as Hc.
    destruct (convertibleV (optGet args "message")).
    + destruct Hc as [s Hs]. split; [intros _ | discriminate].
      exists ("回显: " +:+ s).
      assert (Ht : CallTool_try w (Params.mk "echo" args) =
                   Normal (textResult ("回显: " +:+ s))).
      { rewrite try_echo, Hs. reflexivity. }
      split; [exact Ht | exact (Hret _ _ Ht)].
    + split; [discriminate | intros _].
      assert (Ht : CallTool_try w (Params.mk "echo" args) = Throw cannotConvert).
      { rewrite try_echo, Hc. reflexivity. }
      split; [exact Ht | exact (Hcatch _ Ht)].
  - (* get_time *)
    split; [intros _ | discriminate]. eexists. split; reflexivity.
  - (* get_env *)
    unfold interpolated. simpl.
    pose proof (ToStringV_convertible (optGet args "key")) as Hc.
    destruct (convertibleV (optGet args "key")).
    + destruct Hc as [k Hk]. split; [intros _ | discriminate].
      exists (match getenv (env w) k with
              | None => "环境变量 " +:+ k +:+ " 未设置"
              | Some v => k +:+ " = " +:+ v
              end).
      assert (Ht : CallTool_try w (Params.mk "get_env" args) =
                   Normal (textResult (match getenv (env w) k with
                                       | None => "环境变量 " +:+ k +:+ " 未设置"
                                       | Some v => k +:+ " = " +:+ v
                                       end))).
      { rewrite try_get_env, Hk. reflexivity. }
      split; [exact Ht | exact (Hret _ _ Ht)].
    + split; [discriminate | intros _].
      assert (Ht : CallTool_try w (Params.mk "get_env" args) = Throw cannotConvert).
      { rewrite try_get_env, Hc. reflexivity. }
      split; [exact Ht | exact (Hcatch _ Ht)].
  - (* get_config *)
    split; [intros _ | discriminate]. eexists. split; reflexivity.
Qed.

(** * Beyond the specification: startup *)

(** The whole program when a required variable is missing: validation
    ends the process. *)
Lemma program_missing (e : gmap string string) (connect : completion unit) :
  missingVars e ≠ [] → program e connect = validateEnvironment e.
Proof.
  intros Hm. unfold program. rewrite (validateEnvironment_missing e Hm).
  reflexivity.
Qed.

(** The whole program when validation passes. *)
Lemma program_passes (e : gmap string string) (connect : completion unit) :
  missingVars e = [] →
  program e connect =
    match connect with
    | Normal _ =>
        mkProc (trace (validateEnvironment e)
                  ++ [ServerConnect;
                      ConsoleError [LogStr "MCP 服务器正在运行..."]])%list
          (Some tt)
    | Throw err =>
        mkProc (trace (validateEnvironment e)
                  ++ [ServerConnect;
                      ConsoleError [LogStr "服务器错误:"; LogError err];
                      ProcessExit 1])%list
          None
    end.
Proof.
  intros Hm. unfold program. rewrite (validateEnvironment_passes e Hm).
  destruct connect; reflexivity.
Qed.

(** The events of a failed validation: console lines, then the exit. *)
Lemma validateEnvironment_missing_shape (e : gmap string string) :
  missingVars e ≠ [] →
  ∃ lines, trace (validateEnvironment e)
           = (map ConsoleError lines ++ [ProcessExit 1])%list
           ∧ result (validateEnvironment e) = None.
Proof.
  intros Hm. rewrite (validateEnvironment_missing e Hm). simpl.
  eexists (_ :: _ :: _ :: _ :: _ :: _ ::
           (map (λ varName, [LogStr ("   " +:+ varName +:+ "=your-value-here")])
              (missingVars e) ++ [_; _])%list).
  split; [|reflexivity].
  simpl. rewrite map_app, map_map. simpl. rewrite <- app_assoc. reflexivity.
Qed.

(** X1. The process exits during startup exactly when a required variable
    is missing or the connection fails; when it exits, the exit is the
    last event and its status is 1, and no other exit status ever occurs. *)
Theorem program_exits_iff (e : gmap string string) (connect : completion unit) :
  (result (program e connect) = None ↔
     missingVars e ≠ [] ∨ ∃ err, connect = Throw err)
  ∧ (∀ code, ProcessExit code ∈ trace (program e connect) →
       code = 1%Z ∧ result (program e connect) = None)
  ∧ (result (program e connect) = None →
       last (trace (program e connect)) = Some (ProcessExit 1)).
Proof.
  destruct (decide (missingVars e = [])) as [Hm|Hm].
  - rewrite (program_passes e connect Hm), (validateEnvironment_passes e Hm).
    destruct connect as [[]|err]; simpl.
    + split; [|split].
      * split; [discriminate|]. intros [H|[err H]]; [contradiction|discriminate].
      * intros code Hin. repeat (apply elem_of_cons in Hin as [Hin|Hin];
          [discriminate Hin|]). inversion Hin.
      * discriminate.
    + split; [|split].
      * split; [intros _; right; eauto | reflexivity].
      * intros code Hin. repeat (apply elem_of_cons in Hin as [Hin|Hin];
          [first [discriminate Hin | inversion Hin; subst; split; reflexivity]|]).
        inversion Hin.
      * reflexivity.
  - rewrite (program_missing e connect Hm).
    destruct (validateEnvironment_missing_shape e Hm) as (lines & Ht & Hr).
    rewrite Ht, Hr. split; [|split].
    + split; [intros _; left; exact Hm | reflexivity].
    + intros code Hin. apply elem_of_app in Hin as [Hin|Hin].
      * apply list_elem_of_fmap in Hin as (l & Hl & _). discriminate Hl.
      * apply elem_of_cons in Hin as [Hin|Hin]; [|inversion Hin].
        inversion Hin; subst. split; reflexivity.
    + intros _. rewrite last_app. reflexivity.
Qed.

(** X2. The message that the server is running is written exactly when
    validation passed and the connection succeeded; a failed connection is
    logged with the error it failed with. *)
Theorem running_message_iff_connected
    (e : gmap string string) (connect : completion unit) :
  ((ConsoleError [LogStr "MCP 服务器正在运行..."]) ∈ trace (program e connect) ↔
     missingVars e = [] ∧ connect = Normal tt)
  ∧ (∀ err, missingVars e = [] → connect = Throw err →
       (ConsoleError [LogStr "服务器错误:"; LogError err])
         ∈ trace (program e connect)).
Proof.
  split.
  - destruct (decide (missingVars e = [])) as [Hm|Hm].
    + rewrite (program_passes e connect Hm), (validateEnvironment_passes e Hm).
      destruct connect as [[]|err]; simpl.
      * split; [intros _; split; [exact Hm | reflexivity] | intros _].
        rewrite !elem_of_cons. auto 10.
      * split; [|intros [_ H]; discriminate H].
        intros Hin. repeat (apply elem_of_cons in Hin as [Hin|Hin];
          [discriminate Hin|]). inversion Hin.
    + rewrite (program_missing e connect Hm).
      destruct (validateEnvironment_missing_shape e Hm) as (lines & Ht & _).
      split; [|intros [H _]; contradiction].
      intros Hin. exfalso.
      rewrite (validateEnvironment_missing e Hm) in Hin. simpl in Hin.
      repeat (apply elem_of_cons in Hin as [Hin|Hin]; [discriminate Hin|]).
      apply elem_of_app in Hin as [Hin|Hin].
      * apply list_elem_of_fmap in Hin as (v & Hv & _). discriminate Hv.
      * repeat (apply elem_of_cons in Hin as [Hin|Hin]; [discriminate Hin|]).
        inversion Hin.
  - intros err Hm ->. rewrite (program_passes e _ Hm). simpl.
    apply elem_of_app. right. set_solver.
Qed.

(** X3. What the process writes when a required variable is missing
    depends on the environment only through the list of missing names: no
    value of the environment reaches the diagnostic, and how the
    connection would have ended does not matter. *)
Theorem diagnostic_depends_only_on_missing_names
    (e1 e2 : gmap string string) (c1 c2 : completion unit) :
  missingVars e1 ≠ [] →
  missingVars e1 = missingVars e2 →
  program e1 c1 = program e2 c2.
Proof.
  intros Hm Heq.
  assert (Hm2 : missingVars e2 ≠ []) by (rewrite <- Heq; exact Hm).
  rewrite (program_missing e1 c1 Hm), (program_missing e2 c2 Hm2).
  rewrite (validateEnvironment_missing e1 Hm),
          (validateEnvironment_missing e2 Hm2), Heq.
  reflexivity.
Qed.

(** [substring0] on an ASCII text is the plain prefix. *)
Lemma substring0_ascii (n : nat) (s : string) :
  isAscii s = true → substring0 n s = String.substring 0 n s.
Proof.
  revert n. induction s as [|c s IH]; intros n Hs.
  - destruct n; reflexivity.
  - simpl in Hs. apply andb_true_iff in Hs as [Hc Hs].
    apply N.ltb_lt in Hc.
    assert (Hcont : isContinuation c = false).
    { unfold isContinuation. apply andb_false_iff. left.
      apply N.leb_gt. exact Hc. }
    assert (Hunits : codeUnits c = 1).
    { unfold codeUnits. replace (240 <=? N_of_ascii c)%N with false;
        [reflexivity | symmetry; apply N.leb_gt; lia]. }
    simpl. rewrite Hcont, Hunits.
    destruct n as [|n]; [reflexivity|].
    simpl. rewrite Nat.sub_0_r, (IH n Hs). reflexivity.
Qed.

Lemma substring_whole (n : nat) (s : string) :
  (String.length s ≤ n)%nat → String.substring 0 n s = s.
Proof.
  revert n. induction s as [|c s IH]; intros n Hn.
  - destruct n; reflexivity.
  - destruct n as [|n]; simpl in *; [lia|].
    rewrite IH by lia. reflexivity.
Qed.

(** X4. When both required variables are set, the confirmation shows the
    server name in full and, of an ASCII credential, its first five
    characters followed by three stars; a credential of five characters or
    fewer is therefore shown whole. *)
Theorem confirmation_masks_credential
    (e : gmap string string) (name key : string) :
  e !! "SERVER_NAME" = Some name → name ≠ "" →
  e !! "API_KEY" = Some key → key ≠ "" →
  isAscii key = true →
  validateEnvironment e =
    mkProc
      [ConsoleError [LogStr "✅ 环境变量验证通过"];
       ConsoleError [LogStr ("   SERVER_NAME: " +:+ name)];
       ConsoleError
         [LogStr ("   API_KEY: " +:+ String.substring 0 5 key +:+ "***")]]
      (Some tt)
  ∧ ((String.length key ≤ 5)%nat → String.substring 0 5 key = key).
Proof.
  intros Hname Hn Hkey Hk Hascii.
  assert (Hm : missingVars e = []).
  { rewrite missingVars_unrolled, Hname, Hkey,
      (truthy_Some name Hn), (truthy_Some key Hk). reflexivity. }
  split; [|apply substring_whole].
  rewrite (validateEnvironment_passes e Hm). unfold getenv.
  rewrite Hname, Hkey. simpl. rewrite (substring0_ascii 5 key Hascii).
  reflexivity.
Qed.

(** X5. A process that reached the connection has both required variables
    set and not empty; from then on get_config shows the server name
    itself and the credential as set, and get_env reads the server name. *)
Theorem connected_server_is_configured
    (e : gmap string string) (connect : completion unit) (t : Z) :
  ServerConnect ∈ trace (program e connect) →
  ∃ name key,
    e !! "SERVER_NAME" = Some name ∧ name ≠ ""
    ∧ e !! "API_KEY" = Some key ∧ key ≠ ""
    ∧ configField e "serverName" = Some (JString name)
    ∧ configField e "apiKey" = Some (JString "已设置 (***隐藏)")
    ∧ CallTool (mkWorld e t) (getEnvOf "SERVER_NAME") =
        Normal (mkResult [mkItem "text" ("SERVER_NAME = " +:+ name)] None).
Proof.
  intros Hin.
  destruct (decide (missingVars e = [])) as [Hm|Hm].
  - rewrite missingVars_unrolled in Hm.
    destruct (truthy (e !! "API_KEY")) eqn:Hk; [|discriminate Hm].
    destruct (truthy (e !! "SERVER_NAME")) eqn:Hn; [|discriminate Hm].
    destruct (e !! "SERVER_NAME") as [name|] eqn:Hname; [|discriminate Hn].
    destruct (e !! "API_KEY") as [key|] eqn:Hkey; [|discriminate Hk].
    exists name, key.
    assert (Hne : ∀ s, truthy (Some s) = true → s ≠ "").
    { intros s Hs ->. discriminate Hs. }
    split; [reflexivity|]. split; [exact (Hne _ Hn)|].
    split; [reflexivity|]. split; [exact (Hne _ Hk)|].
    split; [|split].
    + unfold configField, configObject, getenv. simpl.
      rewrite Hname. unfold orElse. rewrite Hn. reflexivity.
    + unfold configField, configObject, getenv. simpl.
      rewrite Hkey, Hk. reflexivity.
    + unfold CallTool, getEnvOf. rewrite try_get_env. simpl.
      rewrite lookup_singleton_eq. simpl.
      rewrite (getenv_set _ _ _ Hname). reflexivity.
  - exfalso. rewrite (program_missing e connect Hm) in Hin.
    destruct (validateEnvironment_missing_shape e Hm) as (lines & Ht & _).
    rewrite Ht in Hin. apply elem_of_app in Hin as [Hin|Hin].
    + apply list_elem_of_fmap in Hin as (l & Hl & _). discriminate Hl.
    + apply elem_of_cons in Hin as [Hin|Hin]; [discriminate Hin|inversion Hin].
Qed.

(** * Beyond the specification: the dispatcher *)

(** What the [try] block does on a registered name: it returns a text, or
    the conversion of the argument throws. *)
Lemma try_registered (w : World) (params : Params.t) :
  Params.name params ∈ toolNames →
  (∃ s, CallTool_try w params = Normal (textResult s))
  ∨ CallTool_try w params = Throw cannotConvert.
Proof.
  destruct params as [name args]. unfold toolNames. simpl. intros Hin.
  repeat (apply elem_of_cons in Hin as [->|Hin]); [| | | |inversion Hin].
  - rewrite try_echo.
    pose proof (ToStringV_convertible (optGet args "message")) as Hc.
    destruct (convertibleV (optGet args "message")).
    + destruct Hc as [s ->]. left. eexists. reflexivity.
    + rewrite Hc. right. reflexivity.
  - left. eexists. reflexivity.
  - rewrite try_get_env.
    pose proof (ToStringV_convertible (optGet args "key")) as Hc.
    destruct (convertibleV (optGet args "key")).
    + destruct Hc as [s ->]. left. eexists. reflexivity.
    + rewrite Hc. right. reflexivity.
  - left. eexists. reflexivity.
Qed.

(** X6. The names of the registry are distinct, and the handler answers
    with the unknown-tool error exactly for the names that are not in the
    registry: every tool that is listed is dispatched, and nothing else is. *)
Theorem unknown_tool_error_iff_unregistered (w : World) (params : Params.t) :
  NoDup toolNames
  ∧ (CallTool w params =
       Normal (mkResult
         [mkItem "text" ("错误: 未知工具: " +:+ Params.name params)] (Some true))
     ↔ Params.name params ∉ toolNames).
Proof.
  split.
  - unfold toolNames. simpl.
    repeat (apply NoDup_cons; split; [not_in_names|]). apply NoDup_nil. exact I.
  - split.
    + intros Hr Hin. unfold CallTool in Hr.
      destruct (try_registered w params Hin) as [[s Hs]|Hs];
        rewrite Hs in Hr; simpl in Hr; discriminate Hr.
    + intros Hn. unfold CallTool. rewrite (try_unknown w params Hn).
      reflexivity.
Qed.

(** X7. Whatever the request, the result has exactly one content item,
    of type text; [isError] is either absent, or [true] on a text that
    starts with the error prefix. It is never [false]. *)
Theorem every_result_is_one_text_item (w : World) (params : Params.t) :
  ∃ s,
    CallTool w params = Normal (mkResult [mkItem "text" s] None)
    ∨ CallTool w params =
        Normal (mkResult [mkItem "text" ("错误: " +:+ s)] (Some true)).
Proof.
  unfold CallTool.
  destruct (decide (Params.name params ∈ toolNames)) as [Hin|Hn].
  - destruct (try_registered w params Hin) as [[s Hs]|Hs]; rewrite Hs.
    + exists s. left. reflexivity.
    + exists kCannotConvertToPrimitive. right. reflexivity.
  - rewrite (try_unknown w params Hn).
    exists ("未知工具: " +:+ Params.name params). right. reflexivity.
Qed.

(** X8. A tool reads nothing of its arguments but the one it interpolates,
    and that one only through its conversion to a string: echo depends on
    the conversion of message, get_env on the conversion of key, get_time
    and get_config on no argument at all. *)
Theorem tools_read_only_their_argument
    (w : World) (args args' : option (gmap string JSON)) :
  (ToStringV (optGet args "message") = ToStringV (optGet args' "message") →
     CallTool w (Params.mk "echo" args) = CallTool w (Params.mk "echo" args'))
  ∧ (ToStringV (optGet args "key") = ToStringV (optGet args' "key") →
     CallTool w (Params.mk "get_env" args) =
       CallTool w (Params.mk "get_env" args'))
  ∧ CallTool w (Params.mk "get_time" args) =
      CallTool w (Params.mk "get_time" args')
  ∧ CallTool w (Params.mk "get_config" args) =
      CallTool w (Params.mk "get_config" args').
Proof.
  split; [|split; [|split; reflexivity]]; intros Heq; unfold CallTool.
  - rewrite !try_echo, Heq. reflexivity.
  - rewrite !try_get_env, Heq. reflexivity.
Qed.

(** X9. A variable set to the empty string is set for get_env, which
    reports it with an empty value, and unset everywhere else: get_config
    shows the default of its field, and validation counts it as missing
    when it is required. *)
Theorem empty_variable_is_set_for_get_env_only
    (w : World) (args : gmap string JSON) (var : string) :
  args !! "key" = Some (JString var) →
  env w !! var = Some "" →
  CallTool w (Params.mk "get_env" (Some args)) =
    Normal (mkResult [mkItem "text" (var +:+ " = ")] None)
  ∧ (∀ field, (field, var) ∈ configVars →
       configField (env w) field =
         Some (JString (if decide (field = "environment")
                        then "development" else "未设置")))
  ∧ (var ∈ REQUIRED_ENV_VARS → var ∈ missingVars (env w)).
Proof.
  intros Hkey Hvar. split; [|split].
  - unfold CallTool. rewrite try_get_env. simpl. rewrite Hkey. simpl.
    rewrite (getenv_set _ _ _ Hvar). reflexivity.
  - intros field Hin. unfold configVars in Hin.
    repeat (apply elem_of_cons in Hin as [Hin|Hin]);
      try (inversion Hin; subst; unfold configField, configObject, getenv;
           simpl; rewrite Hvar; reflexivity).
  - intros Hreq. unfold missingVars, getenv.
    apply list_elem_of_In, filter_In. split; [apply list_elem_of_In, Hreq|].
    rewrite Hvar. reflexivity.
Qed.

Lemma append_inv_head (a b c : string) : a +:+ b = a +:+ c → b = c.
Proof.
  induction a as [|x a IH]; simpl; [auto|].
  intros H. injection H as H. exact (IH H).
Qed.

(** X11. The text of get_env determines the value: two worlds that give
    the same result for a variable set in both hold the same value for it.
    What get_config hides of a variable, get_env tells. *)
Theorem get_env_result_determines_value
    (w1 w2 : World) (args : gmap string JSON) (k v1 v2 : string) :
  args !! "key" = Some (JString k) →
  env w1 !! k = Some v1 →
  env w2 !! k = Some v2 →
  CallTool w1 (Params.mk "get_env" (Some args)) =
    CallTool w2 (Params.mk "get_env" (Some args)) →
  v1 = v2.
Proof.
  intros Hkey H1 H2. unfold CallTool. rewrite !try_get_env. simpl.
  rewrite Hkey. simpl.
  rewrite (getenv_set _ _ _ H1), (getenv_set _ _ _ H2). intros Heq.
  injection Heq as Heq. apply append_inv_head in Heq.
  exact (append_inv_head " = " v1 v2 Heq).
Qed.

(** * Beyond the specification: the shape of the snapshot *)

Lemma countLF_app (a b : string) :
  countLF (a +:+ b) = countLF a + countLF b.
Proof.
  induction a as [|c a IH]; [reflexivity|].
  simpl. rewrite IH. lia.
Qed.

(** No escape holds a line feed: the line feed itself becomes the two
    characters of its escape. *)
Lemma countLF_quoteChar (c : ascii) : countLF (quoteChar c) = 0.
Proof.
  destruct c as [[] [] [] [] [] [] [] []]; reflexivity.
Qed.

Lemma countLF_QuoteJSONString (s : string) : countLF (QuoteJSONString s) = 0.
Proof.
  unfold QuoteJSONString. rewrite !countLF_app.
  assert (Hq : countLF (quoteChars s) = 0).
  { induction s as [|c s IH]; [reflexivity|].
    simpl. rewrite countLF_app, countLF_quoteChar, IH. reflexivity. }
  rewrite Hq. reflexivity.
Qed.

(** X10. The text of get_config has the same eight lines whatever the
    environment holds: the heading, the two braces and one line for each
    of the five fields. A value with a line feed in it is escaped and
    cannot add a line or a field of its own. *)
Theorem get_config_text_has_eight_lines
    (w : World) (args : option (gmap string JSON)) :
  ∃ r, CallTool w (Params.mk "get_config" args) = Normal r
       ∧ isError r = None
       ∧ countLF (textOf r) = 7.
Proof.
  eexists. split; [reflexivity|]. split; [reflexivity|].
  unfold textOf, textResult, JSON_stringify, configObject.
  cbn [content text stringify map join fst snd].
  rewrite !countLF_app, !countLF_QuoteJSONString. reflexivity.
Qed.

End Host.

(** * The properties on a sample run *)

(** ** The claims the code does not meet as they are stated *)

(** C6 as stated fails: with NODE_ENV absent the environment field is
    "development", not the "not set" text. *)
Lemma environment_defaults_to_development :
  ("environment", "NODE_ENV") ∈ configVars
  ∧ (∅ : gmap string string) !! "NODE_ENV" = None
  ∧ configField ∅ "environment" = Some (JString "development")
  ∧ configField ∅ "environment" ≠ Some (JString "未设置").
Proof.
  split; [unfold configVars; set_solver|].
  split; [reflexivity|]. split; [reflexivity|]. discriminate.
Qed.


(** C10 as stated fails: echo is a registered tool and its arguments are
    JSON, yet the [try] throws and the result has [isError: true]. *)
Lemma echo_of_object_with_own_toString_throws :
  Params.name echoOwnToString ∈ toolNames
  ∧ CallTool_try sampleNumber sampleDate sampleWorld echoOwnToString =
      Throw (mkError TypeErrorCtor "Cannot convert object to primitive value")
  ∧ CallTool sampleNumber sampleDate sampleWorld echoOwnToString =
      Normal (mkResult
        [mkItem "text" "错误: Cannot convert object to primitive value"]
        (Some true)).
Proof.
  split; [unfold toolNames; simpl; set_solver|].
  split; vm_compute; reflexivity.
Qed.

(** ** The theorems at concrete inputs *)

Ltac not_in_list :=
  let H := fresh in
  intros H; repeat (apply elem_of_cons in H as [H|H]; [discriminate H|]);
  inversion H.

(** An unknown tool is reported, and the echo sent after it succeeds. *)
Lemma dispatcher_catches_every_fault_witness :
  CallTool sampleNumber sampleDate sampleWorld bogusTool =
    Normal (mkResult [mkItem "text" "错误: 未知工具: bogus_tool"] (Some true))
  ∧ Forall (λ c, ∃ resp, c = Normal resp)
      (serve sampleNumber sampleDate sampleEnv
         [(0%Z, CallToolRequest bogusTool); (1%Z, CallToolRequest echoHi)]).
Proof.
  destruct (dispatcher_catches_every_fault sampleNumber sampleDate sampleWorld
              bogusTool
              [(0%Z, CallToolRequest bogusTool); (1%Z, CallToolRequest echoHi)])
    as (_ & _ & Hunknown & _ & Hall).
  split; [apply Hunknown; simpl; not_in_list | exact Hall].
Defined.

(** With only SERVER_NAME set, the process writes the diagnostic for
    API_KEY alone, exits with 1 and does not connect; with both set it
    connects. *)
Lemma startup_gate_witness :
  program sampleNumber {["SERVER_NAME" := "demo"]} (Normal tt) =
    mkProc
      [ConsoleError [LogStr "❌ 错误：缺少必需的环境变量！"];
       ConsoleError [LogStr (LF +:+ "缺少的变量: API_KEY" +:+ LF)];
       ConsoleError [LogStr "请按以下步骤配置："];
       ConsoleError [LogStr "1. 复制 .env.example 为 .env"];
       ConsoleError [LogStr "   cp .env.example .env"];
       ConsoleError [LogStr "2. 编辑 .env 文件，设置以下变量："];
       ConsoleError [LogStr "   API_KEY=your-value-here"];
       ConsoleError
         [LogStr (LF +:+ "或者在 Claude Desktop 配置中添加 env 字段：")];
       ConsoleError
         [LogStr (join LF [
            "{";
            "  " +:+ quoted "mcpServers" +:+ ": {";
            "    " +:+ quoted "mcp-server" +:+ ": {";
            "      " +:+ quoted "command" +:+ ": " +:+ quoted "npx" +:+ ",";
            "      " +:+ quoted "args" +:+ ": [";
            "        " +:+ quoted "-y" +:+ ",";
            "        " +:+ quoted "path/to/your/project";
            "      ],";
            "      " +:+ quoted "env" +:+ ": {";
            "        " +:+ quoted "API_KEY" +:+ ": "
              +:+ quoted "your-value-here";
            "      }";
            "    }";
            "  }";
            "}"])];
       ProcessExit 1]
      None
  ∧ ServerConnect ∈ trace (program sampleNumber sampleEnv (Normal tt)).
Proof.
  assert (Ha : absentOrEmpty {["SERVER_NAME" := "demo"]} "API_KEY")
    by (left; reflexivity).
  split.
  - destruct (startup_gate sampleNumber {["SERVER_NAME" := "demo"]} (Normal tt))
      as (_ & _ & _ & _ & Hexit & _).
    destruct (Hexit (or_introl Ha)) as [Hprog _]. exact Hprog.
  - destruct (startup_gate sampleNumber sampleEnv (Normal tt))
      as (_ & _ & _ & _ & _ & Hgo).
    apply Hgo; intros [H|H]; vm_compute in H; discriminate H.
Defined.


(** Two credentials, one result. *)
Lemma get_config_hides_api_key_witness :
  CallTool sampleNumber sampleDate
    (mkWorld (<["API_KEY" := "sk-12345678"]> {["SERVER_NAME" := "demo"]}) 0)
    (Params.mk "get_config" (Some ∅)) =
  CallTool sampleNumber sampleDate
    (mkWorld (<["API_KEY" := "another-secret"]> {["SERVER_NAME" := "demo"]}) 0)
    (Params.mk "get_config" (Some ∅)).
Proof.
  apply (get_config_hides_api_key sampleNumber sampleDate
           {["SERVER_NAME" := "demo"]} 0 (Some ∅)
           "sk-12345678" "another-secret"); discriminate.
Defined.

(** The defaults of the port and of the environment field. *)
Lemma get_config_defaults_witness :
  configField ∅ "port" = Some (JString "未设置")
  ∧ configField ∅ "environment" = Some (JString "development").
Proof.
  split.
  - apply (get_config_defaults sampleNumber sampleDate ∅ 0 None "port" "PORT");
      [unfold configVars; set_solver | reflexivity].
  - apply (get_config_defaults sampleNumber sampleDate ∅ 0 None
             "environment" "NODE_ENV");
      [unfold configVars; set_solver | reflexivity].
Defined.

(** The spec's example of echo. *)
Lemma echo_returns_prefixed_message_witness :
  CallTool sampleNumber sampleDate sampleWorld echoHi =
    Normal (mkResult [mkItem "text" "回显: hi"] None).
Proof.
  apply (echo_returns_prefixed_message sampleNumber sampleDate sampleWorld
           {["message" := JString "hi"]} "hi").
  reflexivity.
Defined.

(** Calls without their argument. *)
Lemma absent_argument_embeds_undefined_witness :
  CallTool sampleNumber sampleDate sampleWorld (Params.mk "echo" (Some ∅)) =
    Normal (mkResult [mkItem "text" "回显: undefined"] None)
  ∧ CallTool sampleNumber sampleDate sampleWorld (Params.mk "get_env" None) =
    Normal (mkResult [mkItem "text" "环境变量 undefined 未设置"] None).
Proof.
  split.
  - apply (absent_argument_embeds_undefined sampleNumber sampleDate
             sampleWorld (Some ∅)). reflexivity.
  - apply (absent_argument_embeds_undefined sampleNumber sampleDate
             sampleWorld None). reflexivity.
Defined.

(** The same get_env call at two instants. *)
Lemma calls_are_deterministic_witness :
  CallTool sampleNumber sampleDate (mkWorld sampleEnv 0) (getEnvOf "SERVER_NAME") =
  CallTool sampleNumber sampleDate (mkWorld sampleEnv 86400000)
    (getEnvOf "SERVER_NAME").
Proof.
  apply (calls_are_deterministic sampleNumber sampleDate sampleEnv 0 86400000
           (getEnvOf "SERVER_NAME")).
  discriminate.
Defined.

(** An echo of an array succeeds; an echo of an object with its own
    [toString] is reported as an error. *)
Lemma registered_call_fails_only_on_conversion_witness :
  (∃ s, CallTool sampleNumber sampleDate sampleWorld
          (Params.mk "echo"
             (Some {["message" := JArray [JNull; JString "a"; JBool true]]})) =
        Normal (mkResult [mkItem "text" s] None))
  ∧ CallTool sampleNumber sampleDate sampleWorld echoOwnToString =
      Normal (mkResult
        [mkItem "text" "错误: Cannot convert object to primitive value"]
        (Some true)).
Proof.
  split.
  - destruct (registered_call_fails_only_on_conversion sampleNumber sampleDate
                sampleWorld
                (Params.mk "echo"
                   (Some {["message" := JArray [JNull; JString "a"; JBool true]]})))
      as [Hok _]; [unfold toolNames; simpl; set_solver|].
    destruct (Hok eq_refl) as (s & _ & Hs). exists s. exact Hs.
  - destruct (registered_call_fails_only_on_conversion sampleNumber sampleDate
                sampleWorld echoOwnToString)
      as [_ Hthrow]; [unfold toolNames; simpl; set_solver|].
    destruct (Hthrow eq_refl) as [_ Hr]. exact Hr.
Defined.

(** ** The further theorems at concrete inputs *)

(** With API_KEY missing, neither the server name nor any other variable
    nor the outcome of the connection changes what is written. *)
Lemma diagnostic_depends_only_on_missing_names_witness :
  program sampleNumber {["SERVER_NAME" := "demo"]} (Normal tt) =
  program sampleNumber (<["PORT" := "8080"]> {["SERVER_NAME" := "other"]})
    (Throw cannotConvert).
Proof.
  apply (diagnostic_depends_only_on_missing_names sampleNumber
           {["SERVER_NAME" := "demo"]}
           (<["PORT" := "8080"]> {["SERVER_NAME" := "other"]})
           (Normal tt) (Throw cannotConvert));
    [discriminate | reflexivity].
Defined.

(** The confirmation for the sample environment. *)
Lemma confirmation_masks_credential_witness :
  validateEnvironment sampleNumber sampleEnv =
    mkProc
      [ConsoleError [LogStr "✅ 环境变量验证通过"];
       ConsoleError [LogStr "   SERVER_NAME: demo"];
       ConsoleError [LogStr "   API_KEY: sk-12***"]]
      (Some tt).
Proof.
  apply (confirmation_masks_credential sampleNumber sampleEnv
           "demo" "sk-12345678");
    first [reflexivity | discriminate].
Defined.

(** The sample environment connects, and is configured. *)
Lemma connected_server_is_configured_witness :
  ∃ name key,
    sampleEnv !! "SERVER_NAME" = Some name ∧ name ≠ ""
    ∧ sampleEnv !! "API_KEY" = Some key ∧ key ≠ ""
    ∧ configField sampleEnv "serverName" = Some (JString name)
    ∧ configField sampleEnv "apiKey" = Some (JString "已设置 (***隐藏)")
    ∧ CallTool sampleNumber sampleDate (mkWorld sampleEnv 0)
        (getEnvOf "SERVER_NAME") =
        Normal (mkResult [mkItem "text" ("SERVER_NAME = " +:+ name)] None).
Proof.
  apply (connected_server_is_configured sampleNumber sampleDate sampleEnv
           (Normal tt) 0).
  apply list_elem_of_In. vm_compute. auto 10.
Defined.

(** A null message and the text "null" are echoed alike. *)
Lemma tools_read_only_their_argument_witness :
  CallTool sampleNumber sampleDate sampleWorld
    (Params.mk "echo" (Some {["message" := JNull]})) =
  CallTool sampleNumber sampleDate sampleWorld
    (Params.mk "echo" (Some {["message" := JString "null"]})).
Proof.
  destruct (tools_read_only_their_argument sampleNumber sampleDate sampleWorld
              (Some {["message" := JNull]})
              (Some {["message" := JString "null"]})) as [Hecho _].
  apply Hecho. reflexivity.
Defined.

(** PORT set to the empty string. *)
Lemma empty_variable_is_set_for_get_env_only_witness :
  CallTool sampleNumber sampleDate (mkWorld {["PORT" := ""]} 0) (getEnvOf "PORT") =
    Normal (mkResult [mkItem "text" "PORT = "] None)
  ∧ configField {["PORT" := ""]} "port" = Some (JString "未设置").
Proof.
  destruct (empty_variable_is_set_for_get_env_only sampleNumber sampleDate
              (mkWorld {["PORT" := ""]} 0) {["key" := JString "PORT"]} "PORT")
    as (Hget & Hcfg & _); [reflexivity | reflexivity |].
  split; [exact Hget|].
  apply (Hcfg "port"). unfold configVars. set_solver.
Defined.

(** The credential read at two instants. *)
Lemma get_env_result_determines_value_witness :
  CallTool sampleNumber sampleDate (mkWorld sampleEnv 0) (getEnvOf "API_KEY") =
    CallTool sampleNumber sampleDate (mkWorld sampleEnv 1000) (getEnvOf "API_KEY")
  ∧ "sk-12345678" = "sk-12345678".
Proof.
  split; [reflexivity|].
  apply (get_env_result_determines_value sampleNumber sampleDate
           (mkWorld sampleEnv 0) (mkWorld sampleEnv 1000)
           {["key" := JString "API_KEY"]} "API_KEY");
    reflexivity.
Defined.
